(** * GigFlow: ownership-checked CRUD handlers over a relational store

    A shallow embedding of the Django views of the GigFlow back end
    ([projects/views.py], [sample_work/views.py], [user/views.py]) and of the
    deletion rules declared in the models ([on_delete=CASCADE] and
    [on_delete=PROTECT]).

    The store is a record of tables, each a finite map from primary key to
    row.  A view is a function from a request and a store to an outcome and a
    store.  Query parameters are strings, as [request.GET] hands them out;
    Python's truthiness tests and [int()] conversions on them are written
    out. *)

From Stdlib Require Import ZArith String Ascii List Bool Lia.
From stdpp Require Import base option list sorting gmap strings.

Local Open Scope Z_scope.
Local Open Scope string_scope.

(** ** Python strings *)

Module Py.

(** [str.isspace] on the ASCII range: TAB..CR, FS..US and the blank. *)
Definition isspace (c : ascii) : bool :=
  let n := N_of_ascii c in
  ((9 <=? n)%N && (n <=? 13)%N) || ((28 <=? n)%N && (n <=? 32)%N).

Fixpoint lstrip (s : string) : string :=
  match s with
  | String c s' => if isspace c then lstrip s' else s
  | EmptyString => EmptyString
  end.

Fixpoint rev_append (s acc : string) : string :=
  match s with
  | String c s' => rev_append s' (String c acc)
  | EmptyString => acc
  end.

Definition rev (s : string) : string := rev_append s EmptyString.

(** [str.strip()] *)
Definition strip (s : string) : string := rev (lstrip (rev (lstrip s))).

(** [str.lower()] on the ASCII range. *)
Definition lower_ascii (c : ascii) : ascii :=
  let n := N_of_ascii c in
  if ((65 <=? n)%N && (n <=? 90)%N)%bool then ascii_of_N (n + 32) else c.

Fixpoint lower (s : string) : string :=
  match s with
  | String c s' => String (lower_ascii c) (lower s')
  | EmptyString => EmptyString
  end.

Fixpoint startswith (s sub : string) : bool :=
  match sub, s with
  | EmptyString, _ => true
  | String a sub', String b s' => Ascii.eqb a b && startswith s' sub'
  | String _ _, EmptyString => false
  end.

(** [sub in s] *)
Fixpoint contains (s sub : string) : bool :=
  startswith s sub ||
  match s with
  | String _ s' => contains s' sub
  | EmptyString => false
  end.

(** The [icontains] lookup of the ORM: a case-insensitive substring test
    (SQL [LIKE '%sub%'], which ignores the case of ASCII letters). *)
Definition icontains (s sub : string) : bool :=
  contains (lower s) (lower sub).

Definition digit (c : ascii) : option Z :=
  let n := N_of_ascii c in
  if ((48 <=? n)%N && (n <=? 57)%N)%bool then Some (Z.of_N n - 48) else None.

Definition isdigit (c : ascii) : bool := bool_decide (is_Some (digit c)).

(** The digits of an integer literal; a single underscore may sit between
    two digits. *)
Fixpoint digits (acc : Z) (s : string) : option Z :=
  match s with
  | EmptyString => Some acc
  | String c s' =>
      match digit c with
      | Some d => digits (10 * acc + d) s'
      | None =>
          if Ascii.eqb c "_" then
            match s' with
            | String c' _ => if isdigit c' then digits acc s' else None
            | EmptyString => None
            end
          else None
      end
  end.

Definition natural (s : string) : option Z :=
  match s with
  | String c _ => if isdigit c then digits 0 s else None
  | EmptyString => None
  end.

(** [int(s)] for an ASCII string [s] in base ten: surrounding white space
    is stripped, one sign is allowed; [None] stands for [ValueError]. *)
Definition int (s : string) : option Z :=
  match strip s with
  | String "+" r => natural r
  | String "-" r => Z.opp <$> natural r
  | t => natural t
  end.

(** The exceptions that escape the views. *)
Inductive exception := ValueError.

(** Truth value of [request.GET.get(key)]: [None] and the empty string are
    false. *)
Definition truthy (v : option string) : bool :=
  match v with
  | Some (String _ _) => true
  | _ => false
  end.

End Py.

(** ** Data model

    One module per model class of the repository; a row is the record of the
    columns the views and serializers touch, under the names of the fields in
    [models.py].  A foreign key is the primary key of the row it points to. *)

Module Category.
Record row := { name : string; created_at : Z }.
End Category.

Module Skill.
(** [category]: [ForeignKey(Category, on_delete=CASCADE)]. *)
Record row := { name : string; category : Z; created_at : Z }.
End Skill.

Module User.
(** [user_type], [category], [phone_number] and [resume] are nullable;
    [category] is [ForeignKey(Category, on_delete=PROTECT, null=True)]. *)
Record row := {
  username : string;
  email : string;
  password : string;
  first_name : string;
  last_name : string;
  user_type : option string;
  category : option Z;
  phone_number : option string;
  resume : option string
}.

(** [user.user_type == s] *)
Definition user_type_is (u : row) (s : string) : bool :=
  match user_type u with
  | Some t => String.eqb t s
  | None => false
  end.
End User.

Module Projects.
(** [user]: [ForeignKey(User, on_delete=CASCADE)];
    [category]: [ForeignKey(Category, on_delete=CASCADE)];
    [price] counts hundredths ([decimal_places=2]). *)
Record row := {
  user : Z;
  name : string;
  description : string;
  category : Z;
  deadline : string;
  price : Z;
  created_at : Z
}.
End Projects.

Module SampleWork.
(** [user]: [ForeignKey(User, on_delete=CASCADE)]. *)
Record row := {
  user : Z;
  name : string;
  description : string;
  skill : string;
  image : string;
  created_at : Z
}.
End SampleWork.

(** The store: one table per model. *)
Record DB := {
  categories : gmap Z Category.row;
  skills : gmap Z Skill.row;
  users : gmap Z User.row;
  projects : gmap Z Projects.row;
  sample_works : gmap Z SampleWork.row
}.

Definition set_users (t : gmap Z User.row) (db : DB) : DB :=
  {| categories := categories db; skills := skills db; users := t;
     projects := projects db; sample_works := sample_works db |}.

Definition set_projects (t : gmap Z Projects.row) (db : DB) : DB :=
  {| categories := categories db; skills := skills db; users := users db;
     projects := t; sample_works := sample_works db |}.

Definition set_sample_works (t : gmap Z SampleWork.row) (db : DB) : DB :=
  {| categories := categories db; skills := skills db; users := users db;
     projects := projects db; sample_works := t |}.

(** ** Object-relational layer *)

Module ORM.

(** Outcome of [Model.objects.get(id=<query parameter>, ...)]. *)
Inductive lookup (A : Type) :=
| Found (pk : Z) (r : A)
| DoesNotExist
| Raises (e : Py.exception).
Arguments Found {A} pk r.
Arguments DoesNotExist {A}.
Arguments Raises {A} e.

(** [Model.objects.get(id=v, <cond>)] where [v] comes from the query
    string.  A missing parameter ([id=None]) matches no row; a string that
    [int()] refuses raises [ValueError], which no view catches; a row with
    that key counts only if it passes [cond]. *)
Definition get {A} (t : gmap Z A) (v : option string) (cond : A → bool)
  : lookup A :=
  match v with
  | None => DoesNotExist
  | Some s =>
      match Py.int s with
      | None => Raises Py.ValueError
      | Some k =>
          match t !! k with
          | Some r => if cond r then Found k r else DoesNotExist
          | None => DoesNotExist
          end
      end
  end.

(** Key given to a new row: one past the largest key of the table. *)
Definition max_pk {A} (t : gmap Z A) : Z :=
  foldr Z.max 0 (fst <$> map_to_list t).

Definition next_pk {A} (t : gmap Z A) : Z := max_pk t + 1.

(** [Model.objects.create(...)]: the new key and the new table. *)
Definition create {A} (r : A) (t : gmap Z A) : Z * gmap Z A :=
  (next_pk t, <[next_pk t := r]> t).

(** [Model.objects.all()]: the rows with their keys, by ascending key (no
    model declares an ordering; the rows come back as they are stored). *)
Definition all {A} (t : gmap Z A) : list (Z * A) :=
  merge_sort (λ a b, a.1 ≤ b.1)%Z (H := λ a b, decide (a.1 ≤ b.1)%Z) (map_to_list t).

(** Result of [instance.delete()]. *)
Inductive deletion :=
| Deleted (db : DB)
| ProtectedError.

(** [User.category] is declared with [on_delete=PROTECT]. *)
Definition protects (c : Z) (u : User.row) : bool :=
  bool_decide (User.category u = Some c).

(** [Category.delete()]: a user row pointing to the category protects it
    and the deletion is refused; otherwise the category goes, and with it
    the skills and the projects that point to it ([CASCADE]). *)
Definition delete_category (c : Z) (db : DB) : deletion :=
  if bool_decide (map_Exists (λ _ u, protects c u = true) (users db))
  then ProtectedError
  else Deleted
    {| categories := delete c (categories db);
       skills := filter (λ kr, Skill.category kr.2 ≠ c) (skills db);
       users := users db;
       projects := filter (λ kr, Projects.category kr.2 ≠ c) (projects db);
       sample_works := sample_works db |}.

(** [User.delete()]: the user goes, and with it the projects and the
    sample works it owns ([CASCADE]). *)
Definition delete_user (u : Z) (db : DB) : DB :=
  {| categories := categories db;
     skills := skills db;
     users := delete u (users db);
     projects := filter (λ kr, Projects.user kr.2 ≠ u) (projects db);
     sample_works := filter (λ kr, SampleWork.user kr.2 ≠ u) (sample_works db) |}.

(** [Projects.delete()] and [SampleWork.delete()]: nothing points to these
    rows, so only the row goes. *)
Definition delete_project (k : Z) (db : DB) : DB :=
  set_projects (delete k (projects db)) db.

Definition delete_sample_work (k : Z) (db : DB) : DB :=
  set_sample_works (delete k (sample_works db)) db.

End ORM.

(** Referential integrity of [User.category]: a user row that names a
    category names one that is in the store. *)
Definition user_categories_exist (db : DB) : Prop :=
  ∀ k u c, users db !! k = Some u → User.category u = Some c →
           is_Some (categories db !! c).

(** Referential integrity of the whole store: every foreign key of every
    row names a stored row. *)
Definition integrity (db : DB) : Prop :=
  user_categories_exist db
  ∧ (∀ k s, skills db !! k = Some s → is_Some (categories db !! Skill.category s))
  ∧ (∀ k p, projects db !! k = Some p →
       is_Some (users db !! Projects.user p)
       ∧ is_Some (categories db !! Projects.category p))
  ∧ (∀ k w, sample_works db !! k = Some w → is_Some (users db !! SampleWork.user w)).

(** Two stores that differ at most in one table. *)
Definition same_but_projects (db db' : DB) : Prop :=
  categories db' = categories db ∧ skills db' = skills db
  ∧ users db' = users db ∧ sample_works db' = sample_works db.

Definition same_but_sample_works (db db' : DB) : Prop :=
  categories db' = categories db ∧ skills db' = skills db
  ∧ users db' = users db ∧ projects db' = projects db.


(** ** Requests and responses *)

Module Request.

(** [request.user]: the anonymous user, or the row of an account together
    with its key, as authentication loaded it. *)
Inductive principal :=
| AnonymousUser
| Authenticated (pk : Z) (u : User.row).

(** [GET] is the query string, [data] the parsed body, [now] the clock
    read by [auto_now_add]. *)
Record t (D : Type) := {
  user : principal;
  GET : gmap string string;
  data : D;
  now : Z
}.
Arguments user {D} _.
Arguments GET {D} _.
Arguments data {D} _.
Arguments now {D} _.

(** A request that carries no credentials. *)
Definition anonymous {D} (query : gmap string string) (d : D) (clock : Z) : t D :=
  {| user := AnonymousUser; GET := query; data := d; now := clock |}.

End Request.

Module status.
Definition HTTP_200_OK : Z := 200.
Definition HTTP_201_CREATED : Z := 201.
Definition HTTP_204_NO_CONTENT : Z := 204.
Definition HTTP_400_BAD_REQUEST : Z := 400.
Definition HTTP_401_UNAUTHORIZED : Z := 401.
Definition HTTP_403_FORBIDDEN : Z := 403.
Definition HTTP_404_NOT_FOUND : Z := 404.
End status.

(** Body of a response: the [detail] message (the [data] and [errors]
    entries that go with it are left out), or the envelope of a listing. *)
Inductive body (A : Type) :=
| Detail (msg : string)
| Paginated (count : nat) (results : list (Z * A)).
Arguments Detail {A} msg.
Arguments Paginated {A} count results.

(** What a view does: it returns a response or lets an exception escape. *)
Inductive outcome (A : Type) :=
| Response (code : Z) (b : body A)
| Raise (e : Py.exception).
Arguments Response {A} code b.
Arguments Raise {A} e.

Definition status_of {A} (o : outcome A) : option Z :=
  match o with
  | Response code _ => Some code
  | Raise _ => None
  end.

(** ** Serializers

    The request bodies of the three [ModelSerializer]s: one optional entry
    per writable field of [Meta.fields] ([created_at] is read-only). *)

Module ProjectSerializer.
Record data := {
  user : option Z;
  name : option string;
  description : option string;
  category : option Z;
  deadline : option string;
  price : option Z
}.

(** [serializer.save()] on an instance: the validated entries overwrite
    the fields of the row. *)
Definition update (v : data) (r : Projects.row) : Projects.row :=
  {| Projects.user := default (Projects.user r) (user v);
     Projects.name := default (Projects.name r) (name v);
     Projects.description := default (Projects.description r) (description v);
     Projects.category := default (Projects.category r) (category v);
     Projects.deadline := default (Projects.deadline r) (deadline v);
     Projects.price := default (Projects.price r) (price v);
     Projects.created_at := Projects.created_at r |}.

(** [serializer.save(user=user)] without an instance: the caller replaces
    the validated [user], and [auto_now_add] stamps the row. *)
Definition create (v : Projects.row) (owner now : Z) : Projects.row :=
  {| Projects.user := owner;
     Projects.name := Projects.name v;
     Projects.description := Projects.description v;
     Projects.category := Projects.category v;
     Projects.deadline := Projects.deadline v;
     Projects.price := Projects.price v;
     Projects.created_at := now |}.
End ProjectSerializer.

Module SampleWorkSerializer.
Record data := {
  user : option Z;
  name : option string;
  description : option string;
  skill : option string;
  image : option string
}.

Definition update (v : data) (r : SampleWork.row) : SampleWork.row :=
  {| SampleWork.user := default (SampleWork.user r) (user v);
     SampleWork.name := default (SampleWork.name r) (name v);
     SampleWork.description := default (SampleWork.description r) (description v);
     SampleWork.skill := default (SampleWork.skill r) (skill v);
     SampleWork.image := default (SampleWork.image r) (image v);
     SampleWork.created_at := SampleWork.created_at r |}.

Definition create (v : SampleWork.row) (owner now : Z) : SampleWork.row :=
  {| SampleWork.user := owner;
     SampleWork.name := SampleWork.name v;
     SampleWork.description := SampleWork.description v;
     SampleWork.skill := SampleWork.skill v;
     SampleWork.image := SampleWork.image v;
     SampleWork.created_at := now |}.
End SampleWorkSerializer.

Module UserSerializer.
(** A nullable field may be absent, or present with a value or null. *)
Record data := {
  username : option string;
  email : option string;
  password : option string;
  first_name : option string;
  last_name : option string;
  user_type : option (option string);
  category : option (option Z);
  phone_number : option (option string);
  resume : option (option string)
}.

Definition update (v : data) (r : User.row) : User.row :=
  {| User.username := default (User.username r) (username v);
     User.email := default (User.email r) (email v);
     User.password := default (User.password r) (password v);
     User.first_name := default (User.first_name r) (first_name v);
     User.last_name := default (User.last_name r) (last_name v);
     User.user_type := default (User.user_type r) (user_type v);
     User.category := default (User.category r) (category v);
     User.phone_number := default (User.phone_number r) (phone_number v);
     User.resume := default (User.resume r) (resume v) |}.

(** [user.set_password(raw)]: only the [password] column changes. *)
Definition set_password (hashed : string) (r : User.row) : User.row :=
  {| User.username := User.username r;
     User.email := User.email r;
     User.password := hashed;
     User.first_name := User.first_name r;
     User.last_name := User.last_name r;
     User.user_type := User.user_type r;
     User.category := User.category r;
     User.phone_number := User.phone_number r;
     User.resume := User.resume r |}.
End UserSerializer.

(** What the views take from Django and the REST framework.

    [*_is_valid db d] is [Serializer(data=d).is_valid()]: the row built from
    the validated data, or [None] when there are errors.
    [*_is_valid_partial db pk r d] is
    [Serializer(instance, data=d, partial=True).is_valid()] for the instance
    [r] stored under [pk]: the validated entries, or [None].
    [make_password] is the password hasher behind [set_password]; [None] is
    Python's [None].
    [page_size] is the fixed page size of [CustomPageNumberPagination]. *)
Class Framework := {
  project_is_valid : DB → ProjectSerializer.data → option Projects.row;
  project_is_valid_partial :
    DB → Z → Projects.row → ProjectSerializer.data → option ProjectSerializer.data;
  sample_work_is_valid : DB → SampleWorkSerializer.data → option SampleWork.row;
  sample_work_is_valid_partial :
    DB → Z → SampleWork.row → SampleWorkSerializer.data → option SampleWorkSerializer.data;
  user_is_valid : DB → UserSerializer.data → option User.row;
  user_is_valid_partial :
    DB → Z → User.row → UserSerializer.data → option UserSerializer.data;
  make_password : option string → string;
  page_size : nat
}.

(** Modelled from the spec: [core/pagination.py], which defines
    [CustomPageNumberPagination], is not among the sources.  The spec gives
    every listing a paginated envelope (count, links, results array) with a
    fixed page size; the page is picked by the [page] query parameter of a
    page-number paginator, the first one when it is absent, and a page that
    does not exist is answered with 404.  The links are left out. *)
Definition paginate {A} (size : nat) (page : option string)
    (rows : list (Z * A)) : outcome A :=
  let number := match page with None => Some 1 | Some s => Py.int s end in
  match number with
  | Some k =>
      let skip := (Z.to_nat (k - 1) * size)%nat in
      if bool_decide (1 ≤ k)%Z && (bool_decide (k = 1) || bool_decide (skip < length rows)%nat)
      then Response status.HTTP_200_OK (Paginated (length rows) (take size (drop skip rows)))
      else Response status.HTTP_404_NOT_FOUND (Detail "Invalid page.")
  | None => Response status.HTTP_404_NOT_FOUND (Detail "Invalid page.")
  end.

(** Value of a [CharFilter]: the form strips it, and an absent or empty
    value switches the filter off. *)
Definition filter_value (v : option string) : option string :=
  match v with
  | Some s => match Py.strip s with EmptyString => None | t => Some t end
  | None => None
  end.

(** ** projects/project_filterset.py *)

Module ProjectsFilter.

(** [name = CharFilter(field_name="name", lookup_expr="icontains")] *)
Definition name (v : option string) (qs : list (Z * Projects.row))
  : list (Z * Projects.row) :=
  match filter_value v with
  | Some n => filter (λ kr, Py.icontains (Projects.name kr.2) n = true) qs
  | None => qs
  end.

(** [category = CharFilter(field_name="category")]: an exact match on the
    foreign key, whose value has to convert to an integer. *)
Definition category (v : option string) (qs : list (Z * Projects.row))
  : Py.exception + list (Z * Projects.row) :=
  match filter_value v with
  | Some c =>
      match Py.int c with
      | Some k => inr (filter (λ kr, Projects.category kr.2 = k) qs)
      | None => inl Py.ValueError
      end
  | None => inr qs
  end.

(** [ProjectsFilter(request.GET, queryset=queryset).qs] *)
Definition qs (params : gmap string string) (queryset : list (Z * Projects.row))
  : Py.exception + list (Z * Projects.row) :=
  category (params !! "category") (name (params !! "name") queryset).

End ProjectsFilter.

(** ** sample_work/samplework_filterset.py *)

Module SampleWorkFilter.

(** [skill = CharFilter(field_name="skill", lookup_expr="icontains")] *)
Definition qs (params : gmap string string) (queryset : list (Z * SampleWork.row))
  : list (Z * SampleWork.row) :=
  match filter_value (params !! "skill") with
  | Some s => filter (λ kr, Py.icontains (SampleWork.skill kr.2) s = true) queryset
  | None => queryset
  end.

End SampleWorkFilter.

(** ** projects/views.py *)

Module ProjectsView.
Section views.
Context `{Framework}.

(** Lines 77-86 of [get]: the queryset after the narrowing. *)
Definition queryset {D} (request : Request.t D) (db : DB)
  : Py.exception + list (Z * Projects.row) :=
  let queryset := ORM.all (projects db) in
  let search_query := Request.GET request !! "search" in
  let queryset :=
    if Py.truthy search_query
    then filter (λ kr, Py.icontains (Projects.name kr.2) (default "" search_query) = true)
                queryset
    else queryset in
  ProjectsFilter.qs (Request.GET request) queryset.

Definition get {D} (request : Request.t D) (db : DB)
  : outcome Projects.row * DB :=
  match queryset request db with
  | inr qs => (paginate page_size (Request.GET request !! "page") qs, db)
  | inl e => (Raise e, db)
  end.

Definition post (request : Request.t ProjectSerializer.data) (db : DB)
  : outcome Projects.row * DB :=
  match Request.user request with
  | Request.AnonymousUser =>
      (Response status.HTTP_401_UNAUTHORIZED (Detail "Authenticated required"), db)
  | Request.Authenticated pk user =>
      if User.user_type_is user "freelancer" then
        (Response status.HTTP_403_FORBIDDEN
           (Detail "Just employers can create a project"), db)
      else
        match project_is_valid db (Request.data request) with
        | Some v =>
            let r := ProjectSerializer.create v pk (Request.now request) in
            (Response status.HTTP_201_CREATED (Detail "Project create successfully!"),
             set_projects (ORM.create r (projects db)).2 db)
        | None =>
            (Response status.HTTP_400_BAD_REQUEST (Detail "Invalid data"), db)
        end
  end.

Definition delete {D} (request : Request.t D) (db : DB)
  : outcome Projects.row * DB :=
  match Request.user request with
  | Request.AnonymousUser =>
      (Response status.HTTP_401_UNAUTHORIZED (Detail "Authenticated required"), db)
  | Request.Authenticated pk user =>
      if negb (User.user_type_is user "employer") then
        (Response status.HTTP_403_FORBIDDEN
           (Detail "Just employers can delete projects"), db)
      else
        let project_id := Request.GET request !! "project_id" in
        if negb (Py.truthy project_id) then
          (Response status.HTTP_400_BAD_REQUEST (Detail "Project ID is required"), db)
        else
          match ORM.get (projects db) project_id
                  (λ r, bool_decide (Projects.user r = pk)) with
          | ORM.Found k _ =>
              (Response status.HTTP_204_NO_CONTENT
                 (Detail "Project deleted successfully!"),
               ORM.delete_project k db)
          | ORM.DoesNotExist =>
              (Response status.HTTP_404_NOT_FOUND (Detail "Project not found"), db)
          | ORM.Raises e => (Raise e, db)
          end
  end.

Definition put (request : Request.t ProjectSerializer.data) (db : DB)
  : outcome Projects.row * DB :=
  match Request.user request with
  | Request.AnonymousUser =>
      (Response status.HTTP_401_UNAUTHORIZED (Detail "Authentication required"), db)
  | Request.Authenticated pk user =>
      let project_id := Request.GET request !! "project_id" in
      match ORM.get (projects db) project_id
              (λ r, bool_decide (Projects.user r = pk)) with
      | ORM.Found k project =>
          match project_is_valid_partial db k project (Request.data request) with
          | Some v =>
              (Response status.HTTP_200_OK (Detail "Project updated successfully!"),
               set_projects (<[k := ProjectSerializer.update v project]> (projects db)) db)
          | None =>
              (Response status.HTTP_400_BAD_REQUEST (Detail "Invalid data"), db)
          end
      | ORM.DoesNotExist =>
          (Response status.HTTP_404_NOT_FOUND (Detail "Project not found"), db)
      | ORM.Raises e => (Raise e, db)
      end
  end.

End views.
End ProjectsView.

(** ** sample_work/views.py *)

Module SampleWorkView.
Section views.
Context `{Framework}.

Definition queryset {D} (request : Request.t D) (db : DB)
  : list (Z * SampleWork.row) :=
  let queryset := ORM.all (sample_works db) in
  let search_query := Request.GET request !! "search" in
  let queryset :=
    if Py.truthy search_query
    then filter (λ kr, Py.icontains (SampleWork.name kr.2) (default "" search_query) = true)
                queryset
    else queryset in
  SampleWorkFilter.qs (Request.GET request) queryset.

Definition get {D} (request : Request.t D) (db : DB)
  : outcome SampleWork.row * DB :=
  (paginate page_size (Request.GET request !! "page") (queryset request db), db).

Definition post (request : Request.t SampleWorkSerializer.data) (db : DB)
  : outcome SampleWork.row * DB :=
  match Request.user request with
  | Request.AnonymousUser =>
      (Response status.HTTP_401_UNAUTHORIZED (Detail "Authentication required"), db)
  | Request.Authenticated pk user =>
      if negb (User.user_type_is user "freelancer") then
        (Response status.HTTP_403_FORBIDDEN
           (Detail "Only freelancers can create sample projects"), db)
      else
        match sample_work_is_valid db (Request.data request) with
        | Some v =>
            let r := SampleWorkSerializer.create v pk (Request.now request) in
            (Response status.HTTP_201_CREATED
               (Detail "Sample project created successfully!"),
             set_sample_works (ORM.create r (sample_works db)).2 db)
        | None =>
            (Response status.HTTP_400_BAD_REQUEST (Detail "Invalid data"), db)
        end
  end.

Definition delete {D} (request : Request.t D) (db : DB)
  : outcome SampleWork.row * DB :=
  match Request.user request with
  | Request.AnonymousUser =>
      (Response status.HTTP_401_UNAUTHORIZED (Detail "Authentication required"), db)
  | Request.Authenticated pk user =>
      if negb (User.user_type_is user "freelancer") then
        (Response status.HTTP_403_FORBIDDEN
           (Detail "Only freelancers can delete their sample projects"), db)
      else
        let samplework_id := Request.GET request !! "sample_project_id" in
        match ORM.get (sample_works db) samplework_id
                (λ r, bool_decide (SampleWork.user r = pk)) with
        | ORM.Found k _ =>
            (Response status.HTTP_204_NO_CONTENT
               (Detail "Sample project deleted successfully!"),
             ORM.delete_sample_work k db)
        | ORM.DoesNotExist =>
            (Response status.HTTP_404_NOT_FOUND (Detail "Sample project not found"), db)
        | ORM.Raises e => (Raise e, db)
        end
  end.

Definition put (request : Request.t SampleWorkSerializer.data) (db : DB)
  : outcome SampleWork.row * DB :=
  match Request.user request with
  | Request.AnonymousUser =>
      (Response status.HTTP_401_UNAUTHORIZED (Detail "Authentication required"), db)
  | Request.Authenticated pk user =>
      let samplework_id := Request.GET request !! "sample_project_id" in
      if negb (Py.truthy samplework_id) then
        (Response status.HTTP_400_BAD_REQUEST
           (Detail "sample_project_id is required"), db)
      else
        match ORM.get (sample_works db) samplework_id (λ _, true) with
        | ORM.Found k sample_work =>
            if negb (bool_decide (SampleWork.user sample_work = pk)) then
              (Response status.HTTP_403_FORBIDDEN
                 (Detail "You can only update your own sample projects"), db)
            else
              match sample_work_is_valid_partial db k sample_work
                      (Request.data request) with
              | Some v =>
                  (Response status.HTTP_200_OK
                     (Detail "Sample project updated successfully!"),
                   set_sample_works
                     (<[k := SampleWorkSerializer.update v sample_work]> (sample_works db))
                     db)
              | None =>
                  (Response status.HTTP_400_BAD_REQUEST (Detail "Invalid data"), db)
              end
        | ORM.DoesNotExist =>
            (Response status.HTTP_404_NOT_FOUND (Detail "Sample project not found"), db)
        | ORM.Raises e => (Raise e, db)
        end
  end.

End views.
End SampleWorkView.

(** ** user/views.py *)

Module UserView.
Section views.
Context `{Framework}.

Definition get {D} (request : Request.t D) (db : DB)
  : outcome User.row * DB :=
  match Request.user request with
  | Request.AnonymousUser =>
      (Response status.HTTP_401_UNAUTHORIZED (Detail "Please Sign-up"), db)
  | Request.Authenticated pk user =>
      let queryset := ORM.all (users db) in
      let queryset := filter (λ kr, kr.1 = pk) queryset in
      (paginate page_size (Request.GET request !! "page") queryset, db)
  end.

(** Sign-up.  The serializer saves the row with the submitted password;
    [set_password] then replaces it by its hash and the row is saved a
    second time. *)
Definition post (request : Request.t UserSerializer.data) (db : DB)
  : outcome User.row * DB :=
  match Request.user request with
  | Request.Authenticated _ _ =>
      (Response status.HTTP_403_FORBIDDEN
         (Detail "You cannot sign up because you already have an account."), db)
  | Request.AnonymousUser =>
      match user_is_valid db (Request.data request) with
      | None =>
          (Response status.HTTP_400_BAD_REQUEST (Detail "Invalid data"), db)
      | Some v =>
          let '(pk, saved) := ORM.create v (users db) in
          let user :=
            UserSerializer.set_password
              (make_password (UserSerializer.password (Request.data request))) v in
          (Response status.HTTP_201_CREATED
             (Detail "User created successfully! Now you have an account."),
           set_users (<[pk := user]> saved) db)
      end
  end.

Definition put (request : Request.t UserSerializer.data) (db : DB)
  : outcome User.row * DB :=
  match Request.user request with
  | Request.AnonymousUser =>
      (Response status.HTTP_401_UNAUTHORIZED (Detail "Authentication required"), db)
  | Request.Authenticated pk user =>
      let user_id := Request.GET request !! "user_id" in
      if negb (Py.truthy user_id) then
        (Response status.HTTP_400_BAD_REQUEST (Detail "User ID is required"), db)
      else
        match ORM.get (users db) user_id (λ _, true) with
        | ORM.Found k _ =>
            (* [int(user_id)] is the key [k] that the lookup converted *)
            if negb (bool_decide (k = pk)) then
              (Response status.HTTP_403_FORBIDDEN
                 (Detail "You are not authorized to update this user."), db)
            else
              match user_is_valid_partial db pk user (Request.data request) with
              | Some v =>
                  (Response status.HTTP_200_OK (Detail "User updated successfully!"),
                   set_users (<[pk := UserSerializer.update v user]> (users db)) db)
              | None =>
                  (Response status.HTTP_400_BAD_REQUEST (Detail "Invalid data"), db)
              end
        | ORM.DoesNotExist =>
            (Response status.HTTP_404_NOT_FOUND (Detail "User not found"), db)
        | ORM.Raises e => (Raise e, db)
        end
  end.

Definition delete {D} (request : Request.t D) (db : DB)
  : outcome User.row * DB :=
  match Request.user request with
  | Request.AnonymousUser =>
      (Response status.HTTP_403_FORBIDDEN (Detail "Authentication required"), db)
  | Request.Authenticated pk user =>
      let user_id := Request.GET request !! "user_id" in
      if negb (Py.truthy user_id) then
        (Response status.HTTP_400_BAD_REQUEST (Detail "User ID is required"), db)
      else
        match ORM.get (users db) user_id (λ _, true) with
        | ORM.Found k _ =>
            if negb (bool_decide (k = pk)) then
              (Response status.HTTP_403_FORBIDDEN
                 (Detail "You are not authorized to delete this user."), db)
            else
              (Response status.HTTP_204_NO_CONTENT (Detail "User deleted successfully!"),
               ORM.delete_user pk db)
        | ORM.DoesNotExist =>
            (Response status.HTTP_404_NOT_FOUND (Detail "User not found"), db)
        | ORM.Raises e => (Raise e, db)
        end
  end.

End views.
End UserView.

(** ** A concrete framework

    An instance of the interface to run the views on: the validation a
    [ModelSerializer] derives from the field declarations of [models.py]
    (required fields, [max_length], blank values, existing foreign keys,
    unique columns), and a stand-in for the password hasher that keeps the
    shape [algorithm$digest] of Django's encoded passwords. *)

Module Derived.

Definition char_field (max_length : nat) (v : string) : option string :=
  let s := Py.strip v in
  guard (s ≠ "" ∧ (String.length s ≤ max_length)%nat);; Some s.

Definition text_field (v : string) : option string :=
  let s := Py.strip v in
  guard (s ≠ "");; Some s.

Definition related {A} (t : gmap Z A) (k : Z) : option Z :=
  guard (is_Some (t !! k));; Some k.

(** [DecimalField(max_digits=10, decimal_places=2)] on hundredths. *)
Definition decimal_field (p : Z) : option Z :=
  guard (Z.abs p < 10 ^ 10)%Z;; Some p.

(** A field of a partial update: absent stays absent, present is checked. *)
Definition optional {A B} (check : A → option B) (v : option A)
  : option (option B) :=
  match v with
  | Some a => Some <$> check a
  | None => Some None
  end.

Definition project_fields (db : DB) (d : ProjectSerializer.data)
  : option ProjectSerializer.data :=
  u ← optional (related (users db)) (ProjectSerializer.user d);
  n ← optional (char_field 255) (ProjectSerializer.name d);
  t ← optional text_field (ProjectSerializer.description d);
  c ← optional (related (categories db)) (ProjectSerializer.category d);
  l ← optional (char_field 255) (ProjectSerializer.deadline d);
  p ← optional decimal_field (ProjectSerializer.price d);
  Some {| ProjectSerializer.user := u; ProjectSerializer.name := n;
          ProjectSerializer.description := t; ProjectSerializer.category := c;
          ProjectSerializer.deadline := l; ProjectSerializer.price := p |}.

Definition project_row (db : DB) (d : ProjectSerializer.data)
  : option Projects.row :=
  v ← project_fields db d;
  u ← ProjectSerializer.user v;
  n ← ProjectSerializer.name v;
  t ← ProjectSerializer.description v;
  c ← ProjectSerializer.category v;
  l ← ProjectSerializer.deadline v;
  p ← ProjectSerializer.price v;
  Some {| Projects.user := u; Projects.name := n; Projects.description := t;
          Projects.category := c; Projects.deadline := l; Projects.price := p;
          Projects.created_at := 0 |}.

Definition sample_work_fields (db : DB) (d : SampleWorkSerializer.data)
  : option SampleWorkSerializer.data :=
  u ← optional (related (users db)) (SampleWorkSerializer.user d);
  n ← optional (char_field 255) (SampleWorkSerializer.name d);
  t ← optional text_field (SampleWorkSerializer.description d);
  s ← optional (char_field 255) (SampleWorkSerializer.skill d);
  Some {| SampleWorkSerializer.user := u; SampleWorkSerializer.name := n;
          SampleWorkSerializer.description := t; SampleWorkSerializer.skill := s;
          SampleWorkSerializer.image := SampleWorkSerializer.image d |}.

Definition sample_work_row (db : DB) (d : SampleWorkSerializer.data)
  : option SampleWork.row :=
  v ← sample_work_fields db d;
  u ← SampleWorkSerializer.user v;
  n ← SampleWorkSerializer.name v;
  t ← SampleWorkSerializer.description v;
  s ← SampleWorkSerializer.skill v;
  Some {| SampleWork.user := u; SampleWork.name := n; SampleWork.description := t;
          SampleWork.skill := s;
          SampleWork.image := default "" (SampleWorkSerializer.image v);
          SampleWork.created_at := 0 |}.

(** [unique=True]: no row other than [self] holds the value. *)
Definition unique (self : option Z) (column : User.row → option string)
    (db : DB) (v : string) : option string :=
  guard (map_Forall (λ k r, Some k = self ∨ column r ≠ Some v) (users db));; Some v.

Definition user_type_choice (v : option string) : option (option string) :=
  guard (v = None ∨ v = Some "" ∨ v = Some "freelancer" ∨ v = Some "employer");;
  Some v.

Definition nullable {A} (check : A → option A) (v : option A) : option (option A) :=
  optional check v.

Definition user_fields (self : option Z) (db : DB) (d : UserSerializer.data)
  : option UserSerializer.data :=
  n ← optional (λ s, char_field 150 s ≫= unique self (λ r, Some (User.username r)) db)
        (UserSerializer.username d);
  p ← optional (char_field 128) (UserSerializer.password d);
  t ← optional user_type_choice (UserSerializer.user_type d);
  c ← optional (nullable (related (categories db))) (UserSerializer.category d);
  f ← optional (nullable (λ s, char_field 10 s ≫= unique self User.phone_number db))
        (UserSerializer.phone_number d);
  Some {| UserSerializer.username := n;
          UserSerializer.email := UserSerializer.email d;
          UserSerializer.password := p;
          UserSerializer.first_name := UserSerializer.first_name d;
          UserSerializer.last_name := UserSerializer.last_name d;
          UserSerializer.user_type := t;
          UserSerializer.category := c;
          UserSerializer.phone_number := f;
          UserSerializer.resume := UserSerializer.resume d |}.

Definition user_row (db : DB) (d : UserSerializer.data) : option User.row :=
  v ← user_fields None db d;
  n ← UserSerializer.username v;
  p ← UserSerializer.password v;
  Some {| User.username := n;
          User.email := default "" (UserSerializer.email v);
          User.password := p;
          User.first_name := default "" (UserSerializer.first_name v);
          User.last_name := default "" (UserSerializer.last_name v);
          User.user_type := default None (UserSerializer.user_type v);
          User.category := default None (UserSerializer.category v);
          User.phone_number := default None (UserSerializer.phone_number v);
          User.resume := default None (UserSerializer.resume v) |}.

(** Stand-in hasher: the name of the algorithm, a separator and a digest
    (here the reversed password); [None] gives an unusable password. *)
Definition hasher (raw : option string) : string :=
  match raw with
  | Some p => "pbkdf2_sha256$" ++ Py.rev p
  | None => "!"
  end.

Definition framework : Framework := {|
  project_is_valid := project_row;
  project_is_valid_partial := λ db _ _ d, project_fields db d;
  sample_work_is_valid := sample_work_row;
  sample_work_is_valid_partial := λ db _ _ d, sample_work_fields db d;
  user_is_valid := user_row;
  user_is_valid_partial := λ db pk _ d, user_fields (Some pk) db d;
  make_password := hasher;
  page_size := 10
|}.

End Derived.

(** ** A small marketplace to run the views on *)

Module Scenario.

Definition design : Category.row := {| Category.name := "Design"; Category.created_at := 1 |}.
Definition development : Category.row :=
  {| Category.name := "Development"; Category.created_at := 2 |}.

Definition figma : Skill.row :=
  {| Skill.name := "Figma"; Skill.category := 1; Skill.created_at := 3 |}.
Definition python : Skill.row :=
  {| Skill.name := "Python"; Skill.category := 2; Skill.created_at := 4 |}.

Definition account (n : string) (t : option string) (c : option Z) : User.row :=
  {| User.username := n; User.email := n ++ "@example.org";
     User.password := "pbkdf2_sha256$x"; User.first_name := ""; User.last_name := "";
     User.user_type := t; User.category := c; User.phone_number := None;
     User.resume := None |}.

Definition alice := account "alice" (Some "employer") None.
Definition bob := account "bob" (Some "freelancer") (Some 2).
Definition carol := account "carol" (Some "employer") None.
Definition dave := account "dave" (Some "freelancer") None.
Definition eve := account "eve" None None.

Definition logo_design : Projects.row :=
  {| Projects.user := 1; Projects.name := "Big Logo Design";
     Projects.description := "A logo for a bakery"; Projects.category := 1;
     Projects.deadline := "2025-06-01"; Projects.price := 25000; Projects.created_at := 10 |}.
Definition landing_page : Projects.row :=
  {| Projects.user := 3; Projects.name := "Landing page";
     Projects.description := "One page, responsive"; Projects.category := 2;
     Projects.deadline := "2025-07-15"; Projects.price := 80000; Projects.created_at := 11 |}.
Definition logo : Projects.row :=
  {| Projects.user := 1; Projects.name := "logo";
     Projects.description := "Animated logo"; Projects.category := 2;
     Projects.deadline := "soon"; Projects.price := 9900; Projects.created_at := 12 |}.

Definition portfolio : SampleWork.row :=
  {| SampleWork.user := 2; SampleWork.name := "Portfolio site";
     SampleWork.description := "My own site"; SampleWork.skill := "Django";
     SampleWork.image := ""; SampleWork.created_at := 20 |}.
Definition icon_set : SampleWork.row :=
  {| SampleWork.user := 4; SampleWork.name := "Icon set";
     SampleWork.description := "Forty icons"; SampleWork.skill := "Figma";
     SampleWork.image := "icons.png"; SampleWork.created_at := 21 |}.

Definition db : DB :=
  {| categories := {[ 1 := design; 2 := development ]};
     skills := {[ 1 := figma; 2 := python ]};
     users := {[ 1 := alice; 2 := bob; 3 := carol; 4 := dave; 5 := eve ]};
     projects := {[ 1 := logo_design; 2 := landing_page; 3 := logo ]};
     sample_works := {[ 1 := portfolio; 2 := icon_set ]} |}.

Definition request {D} (who : Request.principal) (query : list (string * string))
    (d : D) : Request.t D :=
  {| Request.user := who; Request.GET := list_to_map query;
     Request.data := d; Request.now := 100 |}.

Definition no_project : ProjectSerializer.data :=
  {| ProjectSerializer.user := None; ProjectSerializer.name := None;
     ProjectSerializer.description := None; ProjectSerializer.category := None;
     ProjectSerializer.deadline := None; ProjectSerializer.price := None |}.

Definition new_project : ProjectSerializer.data :=
  {| ProjectSerializer.user := Some 5; ProjectSerializer.name := Some "Shop front";
     ProjectSerializer.description := Some "A small web shop";
     ProjectSerializer.category := Some 2; ProjectSerializer.deadline := Some "2025-09-01";
     ProjectSerializer.price := Some 120000 |}.


Definition blank_sample_work : SampleWorkSerializer.data :=
  {| SampleWorkSerializer.user := None; SampleWorkSerializer.name := Some "";
     SampleWorkSerializer.description := None; SampleWorkSerializer.skill := None;
     SampleWorkSerializer.image := None |}.


Definition reprice (p : Z) : ProjectSerializer.data :=
  {| ProjectSerializer.user := None; ProjectSerializer.name := None;
     ProjectSerializer.description := None; ProjectSerializer.category := None;
     ProjectSerializer.deadline := None; ProjectSerializer.price := Some p |}.

Definition new_sample_work : SampleWorkSerializer.data :=
  {| SampleWorkSerializer.user := Some 1; SampleWorkSerializer.name := Some "Mascot";
     SampleWorkSerializer.description := Some "A mascot for a team";
     SampleWorkSerializer.skill := Some "Illustration";
     SampleWorkSerializer.image := None |}.


Definition reskill (t : string) : SampleWorkSerializer.data :=
  {| SampleWorkSerializer.user := None; SampleWorkSerializer.name := None;
     SampleWorkSerializer.description := None; SampleWorkSerializer.skill := Some t;
     SampleWorkSerializer.image := None |}.




Definition no_sample_work : SampleWorkSerializer.data :=
  {| SampleWorkSerializer.user := None; SampleWorkSerializer.name := None;
     SampleWorkSerializer.description := None; SampleWorkSerializer.skill := None;
     SampleWorkSerializer.image := None |}.



Definition rename (n : string) : UserSerializer.data :=
  {| UserSerializer.username := None; UserSerializer.email := None;
     UserSerializer.password := None; UserSerializer.first_name := Some n;
     UserSerializer.last_name := None; UserSerializer.user_type := None;
     UserSerializer.category := None; UserSerializer.phone_number := None;
     UserSerializer.resume := None |}.


Definition no_user : UserSerializer.data :=
  {| UserSerializer.username := None; UserSerializer.email := None;
     UserSerializer.password := None; UserSerializer.first_name := None;
     UserSerializer.last_name := None; UserSerializer.user_type := None;
     UserSerializer.category := None; UserSerializer.phone_number := None;
     UserSerializer.resume := None |}.

End Scenario.

(** * Properties *)

(** ** Running the definitions *)

Example int_plain : Py.int "42" = Some 42.
Proof. reflexivity. Qed.

Example int_padded : Py.int "  -1_000 " = Some (-1000).
Proof. reflexivity. Qed.

Example int_empty : Py.int "" = None.
Proof. reflexivity. Qed.

Example int_word : Py.int "abc" = None.
Proof. reflexivity. Qed.

Example icontains_logo : Py.icontains "Big LOGO design" "Logo" = true.
Proof. reflexivity. Qed.

Example icontains_miss : Py.icontains "Landing page" "Logo" = false.
Proof. reflexivity. Qed.

Example employer_creates_project :
  (ProjectsView.post (H := Derived.framework)
     (Scenario.request (Request.Authenticated 3 Scenario.carol) [] Scenario.new_project)
     Scenario.db).1
  = Response 201 (Detail "Project create successfully!").
Proof. vm_compute. reflexivity. Qed.

Example freelancer_cannot_create_project :
  ProjectsView.post (H := Derived.framework)
     (Scenario.request (Request.Authenticated 2 Scenario.bob) [] Scenario.new_project)
     Scenario.db
  = (Response 403 (Detail "Just employers can create a project"), Scenario.db).
Proof. reflexivity. Qed.

Example owner_updates_sample_work :
  let outcome := SampleWorkView.put (H := Derived.framework)
    (Scenario.request (Request.Authenticated 2 Scenario.bob) [("sample_project_id", "1")]
       Scenario.blank_sample_work) Scenario.db in
  outcome = (Response 400 (Detail "Invalid data"), Scenario.db).
Proof. reflexivity. Qed.

Example owner_deletes_project :
  let outcome := ProjectsView.delete
    (Scenario.request (Request.Authenticated 1 Scenario.alice) [("project_id", "3")] tt)
    Scenario.db in
  outcome.1 = Response 204 (Detail "Project deleted successfully!")
  ∧ projects outcome.2 !! 3 = None
  ∧ projects outcome.2 !! 1 = Some Scenario.logo_design.
Proof. vm_compute. by repeat split. Qed.

Example project_id_not_a_number :
  ProjectsView.put (H := Derived.framework)
    (Scenario.request (Request.Authenticated 1 Scenario.alice) [("project_id", "three")]
       Scenario.no_project) Scenario.db
  = (Raise Py.ValueError, Scenario.db).
Proof. reflexivity. Qed.

Example listing_first_page :
  (ProjectsView.get (H := Derived.framework)
     (Scenario.request Request.AnonymousUser [("search", "logo")] tt) Scenario.db).1
  = Response 200 (Paginated 2 [(1, Scenario.logo_design); (3, Scenario.logo)]).
Proof. vm_compute. reflexivity. Qed.

Example user_deletes_own_account :
  let outcome := UserView.delete
    (Scenario.request (Request.Authenticated 1 Scenario.alice) [("user_id", "1")] tt)
    Scenario.db in
  outcome = (Response 204 (Detail "User deleted successfully!"),
             ORM.delete_user 1 Scenario.db)
  ∧ projects outcome.2 = {[ 2 := Scenario.landing_page ]}.
Proof. vm_compute. by split. Qed.

(** ** The object-relational layer *)

Section orm_facts.
Context {A : Type}.
Implicit Types (t : gmap Z A) (k : Z) (r : A) (s : string).





Lemma le_foldr_max (l : list Z) (x : Z) : x ∈ l → (x ≤ foldr Z.max 0 l)%Z.
Proof.
  induction l as [|y l IH]; intros Hx.
  - by apply elem_of_nil in Hx.
  - apply elem_of_cons in Hx as [->|Hx]; simpl; [lia|].
    specialize (IH Hx). lia.
Qed.

Lemma le_max_pk t k r : t !! k = Some r → (k ≤ ORM.max_pk t)%Z.
Proof.
  intros Hk. apply le_foldr_max.
  apply list_elem_of_fmap. exists (k, r). split; [done|].
  by apply elem_of_map_to_list.
Qed.

(** The key of a new row is not in use. *)
Lemma next_pk_fresh t : t !! ORM.next_pk t = None.
Proof.
  destruct (t !! ORM.next_pk t) as [r|] eqn:Hk; [|done].
  apply le_max_pk in Hk. unfold ORM.next_pk in Hk. lia.
Qed.

(** [create] adds one row and keeps the others. *)
Lemma create_lookup t r k :
  (ORM.create r t).2 !! k =
    if bool_decide (k = ORM.next_pk t) then Some r else t !! k.
Proof.
  unfold ORM.create. simpl. case_bool_decide as Hk.
  - subst k. apply lookup_insert_eq.
  - by apply lookup_insert_ne.
Qed.

End orm_facts.

(** ** Ownership checks *)





(** ** Creating a project *)

(** A freelancer is turned away and nothing is stored. *)
Lemma post_project_freelancer `{Framework}
    (db : DB) (request : Request.t ProjectSerializer.data) (pk : Z) (caller : User.row) :
  Request.user request = Request.Authenticated pk caller →
  User.user_type caller = Some "freelancer" →
  ProjectsView.post request db
    = (Response 403 (Detail "Just employers can create a project"), db).
Proof.
  intros Huser Htype. unfold ProjectsView.post, User.user_type_is.
  by rewrite Huser, Htype.
Qed.

(** Every other authenticated caller gets through the gate: with valid data
    the project is stored under a new key, owned by the caller. *)
Lemma post_project_creates `{Framework}
    (db : DB) (request : Request.t ProjectSerializer.data) (pk : Z) (caller : User.row)
    (v : Projects.row) :
  Request.user request = Request.Authenticated pk caller →
  User.user_type caller ≠ Some "freelancer" →
  project_is_valid db (Request.data request) = Some v →
  ∃ db', ProjectsView.post request db
           = (Response 201 (Detail "Project create successfully!"), db')
    ∧ projects db !! ORM.next_pk (projects db) = None
    ∧ projects db' !! ORM.next_pk (projects db)
        = Some (ProjectSerializer.create v pk (Request.now request))
    ∧ Projects.user (ProjectSerializer.create v pk (Request.now request)) = pk.
Proof.
  intros Huser Htype Hvalid. eexists. split; [|split; [|split]].
  - unfold ProjectsView.post, User.user_type_is. rewrite Huser, Hvalid.
    destruct (User.user_type caller) as [t|] eqn:Ht; [|reflexivity].
    destruct (String.eqb_spec t "freelancer") as [->|_]; [done|reflexivity].
  - apply next_pk_fresh.
  - simpl. apply lookup_insert_eq.
  - reflexivity.
Qed.

(** C3. The gate of [ProjectsView.post] tests [user_type == "freelancer"]
    and not [user_type != "employer"]: an authenticated account without a
    user type is not turned away with 403; it gets 201 and the project is
    stored under key 4 with that account (key 5) as owner. *)
Theorem post_project_without_user_type_is_created :
  let request :=
    Scenario.request (Request.Authenticated 5 Scenario.eve) [] Scenario.new_project in
  User.user_type Scenario.eve = None
  ∧ (ProjectsView.post (H := Derived.framework) request Scenario.db).1
    = Response 201 (Detail "Project create successfully!")
  ∧ projects Scenario.db !! 4 = None
  ∧ Projects.user <$>
      projects (ProjectsView.post (H := Derived.framework) request Scenario.db).2 !! 4
    = Some 5.
Proof. vm_compute. by repeat split. Qed.

(** ** Callers without credentials *)

(** C4. Without credentials, project create, update and delete, sample-work
    create, update and delete, and user get and update answer 401;
    [UserView.delete] answers 403, with the message of the 401 responses.
    The store is untouched in all nine cases. *)
Theorem unauthenticated_statuses `{Framework}
    (db : DB) (query : gmap string string) (clock : Z)
    (dp : ProjectSerializer.data) (ds : SampleWorkSerializer.data)
    (du : UserSerializer.data) :
  ProjectsView.post (Request.anonymous query dp clock) db
    = (Response 401 (Detail "Authenticated required"), db)
  ∧ ProjectsView.put (Request.anonymous query dp clock) db
    = (Response 401 (Detail "Authentication required"), db)
  ∧ ProjectsView.delete (Request.anonymous query dp clock) db
    = (Response 401 (Detail "Authenticated required"), db)
  ∧ SampleWorkView.post (Request.anonymous query ds clock) db
    = (Response 401 (Detail "Authentication required"), db)
  ∧ SampleWorkView.put (Request.anonymous query ds clock) db
    = (Response 401 (Detail "Authentication required"), db)
  ∧ SampleWorkView.delete (Request.anonymous query ds clock) db
    = (Response 401 (Detail "Authentication required"), db)
  ∧ UserView.get (Request.anonymous query du clock) db
    = (Response 401 (Detail "Please Sign-up"), db)
  ∧ UserView.put (Request.anonymous query du clock) db
    = (Response 401 (Detail "Authentication required"), db)
  ∧ UserView.delete (Request.anonymous query du clock) db
    = (Response 403 (Detail "Authentication required"), db).
Proof. by repeat split. Qed.

(** ** The user account handler *)





(** ** Listing projects *)

Section listing.
Context {A : Type}.
Implicit Types (t : gmap Z A) (l : list (Z * A)).

Lemma elem_of_all t k (r : A) : (k, r) ∈ ORM.all t ↔ t !! k = Some r.
Proof.
  unfold ORM.all. rewrite merge_sort_Permutation. apply elem_of_map_to_list.
Qed.

Lemma NoDup_all t : NoDup (ORM.all t).
Proof.
  unfold ORM.all. rewrite merge_sort_Permutation. apply NoDup_map_to_list.
Qed.



End listing.






(** ** Deletion rules *)

Lemma delete_category_unprotected (c : Z) (db : DB) :
  (∀ k u, users db !! k = Some u → User.category u ≠ Some c) →
  ORM.delete_category c db = ORM.Deleted
    {| categories := delete c (categories db);
       skills := filter (λ kr, Skill.category kr.2 ≠ c) (skills db);
       users := users db;
       projects := filter (λ kr, Projects.category kr.2 ≠ c) (projects db);
       sample_works := sample_works db |}.
Proof.
  intros Hfree. unfold ORM.delete_category.
  rewrite bool_decide_eq_false_2; [done|].
  intros (k & u & Hu & Hc). apply (Hfree k u Hu).
  unfold ORM.protects in Hc. by apply bool_decide_eq_true_1 in Hc.
Qed.

Lemma delete_category_protected (c k : Z) (u : User.row) (db : DB) :
  users db !! k = Some u → User.category u = Some c →
  ORM.delete_category c db = ORM.ProtectedError.
Proof.
  intros Hu Hc. unfold ORM.delete_category.
  rewrite bool_decide_eq_true_2; [done|].
  exists k, u. split; [done|]. unfold ORM.protects. by apply bool_decide_eq_true_2.
Qed.

(** C8. Deleting a category that no user row protects removes that category,
    every skill and every project that points to it, and nothing else;
    deleting a user removes that user, every project and every sample work
    it owns, and nothing else. *)
Theorem cascade_on_delete (db : DB) :
  (∀ c, (∀ k u, users db !! k = Some u → User.category u ≠ Some c) →
     ∃ db', ORM.delete_category c db = ORM.Deleted db'
       ∧ categories db' = delete c (categories db)
       ∧ (∀ k s, skills db' !! k = Some s
                 ↔ skills db !! k = Some s ∧ Skill.category s ≠ c)
       ∧ (∀ k p, projects db' !! k = Some p
                 ↔ projects db !! k = Some p ∧ Projects.category p ≠ c)
       ∧ users db' = users db
       ∧ sample_works db' = sample_works db)
  ∧ (∀ u, let db' := ORM.delete_user u db in
       users db' = delete u (users db)
       ∧ (∀ k p, projects db' !! k = Some p
                 ↔ projects db !! k = Some p ∧ Projects.user p ≠ u)
       ∧ (∀ k w, sample_works db' !! k = Some w
                 ↔ sample_works db !! k = Some w ∧ SampleWork.user w ≠ u)
       ∧ categories db' = categories db
       ∧ skills db' = skills db).
Proof.
  split.
  - intros c Hfree. eexists. split; [by apply delete_category_unprotected|].
    simpl. split; [done|].
    split; [intros k s; apply map_lookup_filter_Some|].
    split; [intros k p; apply map_lookup_filter_Some|]. done.
  - intros u db'. subst db'. simpl. split; [done|].
    split; [intros k p; apply map_lookup_filter_Some|].
    split; [intros k w; apply map_lookup_filter_Some|]. done.
Qed.

Lemma cascade_on_delete_witness :
  ∃ db', ORM.delete_category 1 Scenario.db = ORM.Deleted db'
    ∧ categories db' = {[ 2 := Scenario.development ]}
    ∧ skills db' !! 1 = None ∧ skills db' !! 2 = Some Scenario.python
    ∧ projects db' !! 1 = None ∧ projects db' !! 2 = Some Scenario.landing_page
    ∧ users db' = users Scenario.db.
Proof.
  destruct (cascade_on_delete Scenario.db) as [Hcategory _].
  destruct (Hcategory 1) as (db' & Hdelete & Hcategories & Hskills & Hprojects & Husers & _).
  { intros k u Hu.
    assert (Hall : map_Forall (λ _ u, User.category u ≠ Some 1) (users Scenario.db)).
    { apply (bool_decide_eq_true_1 _). vm_compute. reflexivity. }
    exact (Hall k u Hu). }
  exists db'. split; [exact Hdelete|]. split; [by rewrite Hcategories|].
  split; [|split; [|split; [|split]]].
  - apply eq_None_not_Some. intros [s Hs]. apply Hskills in Hs as [Hs Hc].
    vm_compute in Hs. injection Hs as <-. by apply Hc.
  - by apply Hskills.
  - apply eq_None_not_Some. intros [p Hp]. apply Hprojects in Hp as [Hp Hc].
    vm_compute in Hp. injection Hp as <-. by apply Hc.
  - by apply Hprojects.
  - exact Husers.
Defined.

(** C10. A category that some user row points to cannot be deleted: the
    deletion is refused with [ProtectedError] and no store results, nothing
    is cascaded or set to null.  Category deletion therefore keeps the
    reference of every user row pointing to a stored category. *)
Theorem category_protected_by_users (db : DB) (c : Z) :
  (∀ k u, users db !! k = Some u → User.category u = Some c →
     ORM.delete_category c db = ORM.ProtectedError)
  ∧ (user_categories_exist db →
     ∀ db', ORM.delete_category c db = ORM.Deleted db' →
       users db' = users db ∧ user_categories_exist db').
Proof.
  split; [intros k u; apply delete_category_protected|].
  intros Hexist db' Hdelete. unfold ORM.delete_category in Hdelete.
  case_bool_decide as Hprotected; [discriminate|].
  injection Hdelete as <-. split; [done|].
  intros k u c' Hu Hc'. simpl in *.
  rewrite lookup_delete_ne; [by eapply Hexist|].
  intros <-. apply Hprotected. exists k, u. split; [done|].
  unfold ORM.protects. by apply bool_decide_eq_true_2.
Qed.

Lemma category_protected_by_users_witness :
  ORM.delete_category 2 Scenario.db = ORM.ProtectedError
  ∧ ∀ db', ORM.delete_category 1 Scenario.db = ORM.Deleted db' →
      users db' = users Scenario.db ∧ user_categories_exist db'.
Proof.
  split.
  - apply (proj1 (category_protected_by_users Scenario.db 2) 2 Scenario.bob);
      reflexivity.
  - apply (proj2 (category_protected_by_users Scenario.db 1)).
    intros k u c Hu Hc.
    assert (Hall : map_Forall (λ _ u, ∀ c, User.category u = Some c →
                     is_Some (categories Scenario.db !! c)) (users Scenario.db)).
    { repeat first [apply map_Forall_insert_2 | apply map_Forall_empty];
        intros c' [= <-]. by eexists. }
    exact (Hall k u Hu c Hc).
Defined.

(** ** Rejected updates *)



(** * Further properties of the views *)

(** ** Lookups *)

Lemma get_Found_inv {A} (t : gmap Z A) (v : option string) (cond : A → bool) k r :
  ORM.get t v cond = ORM.Found k r →
  t !! k = Some r ∧ cond r = true ∧ ∃ s, v = Some s ∧ Py.int s = Some k.
Proof.
  unfold ORM.get. destruct v as [s|]; [|done].
  destruct (Py.int s) as [j|] eqn:Hint; [|done].
  destruct (t !! j) as [r'|] eqn:Hrow; [|done].
  destruct (cond r') eqn:Hcond; [|done].
  intros [= <- <-]. eauto.
Qed.

Lemma get_Raises_inv {A} (t : gmap Z A) (v : option string) (cond : A → bool) e :
  ORM.get t v cond = ORM.Raises e → ∃ s, v = Some s ∧ Py.int s = None.
Proof.
  unfold ORM.get. destruct v as [s|]; [|done].
  destruct (Py.int s) as [j|] eqn:Hint; [|by eauto].
  destruct (t !! j) as [r'|]; [|done]. by destruct (cond r').
Qed.


(** ** Rows of other owners *)

(** Whatever the query string and the body, a request that is not made by
    the owner of a project leaves that project in place and unchanged: this
    holds for POST, PUT and DELETE on [/projects/]. *)
Theorem projects_of_others_untouched `{Framework}
    (db : DB) (request : Request.t ProjectSerializer.data) (k : Z) (p : Projects.row) :
  projects db !! k = Some p →
  (∀ u, Request.user request ≠ Request.Authenticated (Projects.user p) u) →
  projects (ProjectsView.post request db).2 !! k = Some p
  ∧ projects (ProjectsView.put request db).2 !! k = Some p
  ∧ projects (ProjectsView.delete request db).2 !! k = Some p.
Proof.
  intros Hp Hnot.
  unfold ProjectsView.post, ProjectsView.put, ProjectsView.delete.
  destruct (Request.user request) as [|pk caller] eqn:Huser; [done|].
  assert (Hother : Projects.user p ≠ pk) by (intros <-; by apply (Hnot caller)).
  split; [|split].
  - destruct (User.user_type_is caller "freelancer"); [done|].
    destruct (project_is_valid _ _); [|done]. simpl.
    rewrite lookup_insert_ne; [done|].
    intros Hk. pose proof (next_pk_fresh (projects db)). congruence.
  - destruct (ORM.get _ _ _) as [j r| |] eqn:Hget; [|done..].
    apply get_Found_inv in Hget as (Hr & Hc & _).
    destruct (project_is_valid_partial _ _ _ _); [|done]. simpl.
    rewrite lookup_insert_ne; [done|].
    intros ->. apply bool_decide_eq_true_1 in Hc. congruence.
  - destruct (negb (User.user_type_is caller "employer")); [done|].
    destruct (negb (Py.truthy _)); [done|].
    destruct (ORM.get _ _ _) as [j r| |] eqn:Hget; [|done..].
    apply get_Found_inv in Hget as (Hr & Hc & _). simpl.
    rewrite lookup_delete_ne; [done|].
    intros ->. apply bool_decide_eq_true_1 in Hc. congruence.
Qed.

Lemma projects_of_others_untouched_witness :
  let request :=
    Scenario.request (Request.Authenticated 3 Scenario.carol) [("project_id", "1")]
      (Scenario.reprice 1) in
  projects (ProjectsView.post (H := Derived.framework) request Scenario.db).2 !! 1
    = Some Scenario.logo_design
  ∧ projects (ProjectsView.put (H := Derived.framework) request Scenario.db).2 !! 1
    = Some Scenario.logo_design
  ∧ projects (ProjectsView.delete request Scenario.db).2 !! 1
    = Some Scenario.logo_design.
Proof.
  intros request.
  apply (projects_of_others_untouched (H := Derived.framework) Scenario.db request 1
           Scenario.logo_design); [reflexivity | discriminate].
Defined.

(** The same for sample works: a request that is not made by the owner of a
    sample work leaves it in place and unchanged under POST, PUT and DELETE
    on [/sample-work/]. *)
Theorem sample_works_of_others_untouched `{Framework}
    (db : DB) (request : Request.t SampleWorkSerializer.data) (k : Z) (w : SampleWork.row) :
  sample_works db !! k = Some w →
  (∀ u, Request.user request ≠ Request.Authenticated (SampleWork.user w) u) →
  sample_works (SampleWorkView.post request db).2 !! k = Some w
  ∧ sample_works (SampleWorkView.put request db).2 !! k = Some w
  ∧ sample_works (SampleWorkView.delete request db).2 !! k = Some w.
Proof.
  intros Hw Hnot.
  unfold SampleWorkView.post, SampleWorkView.put, SampleWorkView.delete.
  destruct (Request.user request) as [|pk caller] eqn:Huser; [done|].
  assert (Hother : SampleWork.user w ≠ pk) by (intros <-; by apply (Hnot caller)).
  split; [|split].
  - destruct (negb (User.user_type_is caller "freelancer")); [done|].
    destruct (sample_work_is_valid _ _); [|done]. simpl.
    rewrite lookup_insert_ne; [done|].
    intros Hk. pose proof (next_pk_fresh (sample_works db)). congruence.
  - destruct (negb (Py.truthy _)); [done|].
    destruct (ORM.get _ _ _) as [j r| |] eqn:Hget; [|done..].
    apply get_Found_inv in Hget as (Hr & _ & _).
    case_bool_decide as Hown; [|done]. simpl.
    destruct (sample_work_is_valid_partial _ _ _ _); [|done]. simpl.
    rewrite lookup_insert_ne; [done|]. intros ->. congruence.
  - destruct (negb (User.user_type_is caller "freelancer")); [done|].
    destruct (ORM.get _ _ _) as [j r| |] eqn:Hget; [|done..].
    apply get_Found_inv in Hget as (Hr & Hc & _). simpl.
    rewrite lookup_delete_ne; [done|].
    intros ->. apply bool_decide_eq_true_1 in Hc. congruence.
Qed.

Lemma sample_works_of_others_untouched_witness :
  let request :=
    Scenario.request (Request.Authenticated 4 Scenario.dave) [("sample_project_id", "1")]
      (Scenario.reskill "Flask") in
  sample_works (SampleWorkView.post (H := Derived.framework) request Scenario.db).2 !! 1
    = Some Scenario.portfolio
  ∧ sample_works (SampleWorkView.put (H := Derived.framework) request Scenario.db).2 !! 1
    = Some Scenario.portfolio
  ∧ sample_works (SampleWorkView.delete request Scenario.db).2 !! 1
    = Some Scenario.portfolio.
Proof.
  intros request.
  apply (sample_works_of_others_untouched (H := Derived.framework) Scenario.db request 1
           Scenario.portfolio); [reflexivity | discriminate].
Defined.

(** And for accounts: a request that is not made by an account leaves the
    row of that account in place and unchanged under POST, PUT and DELETE on
    [/users/]. *)
Theorem other_accounts_untouched `{Framework}
    (db : DB) (request : Request.t UserSerializer.data) (k : Z) (u : User.row) :
  users db !! k = Some u →
  (∀ u', Request.user request ≠ Request.Authenticated k u') →
  users (UserView.post request db).2 !! k = Some u
  ∧ users (UserView.put request db).2 !! k = Some u
  ∧ users (UserView.delete request db).2 !! k = Some u.
Proof.
  intros Hu Hnot.
  unfold UserView.post, UserView.put, UserView.delete.
  destruct (Request.user request) as [|pk caller] eqn:Huser.
  - split; [|done]. destruct (user_is_valid _ _); [|done]. simpl.
    assert (k ≠ ORM.next_pk (users db)).
    { intros ->. pose proof (next_pk_fresh (users db)). congruence. }
    by rewrite !lookup_insert_ne.
  - assert (Hother : k ≠ pk) by (intros ->; by apply (Hnot caller)).
    split; [done|]. split.
    + destruct (negb (Py.truthy _)); [done|].
      destruct (ORM.get _ _ _) as [j r| |]; [|done..].
      destruct (negb (bool_decide (j = pk))); [done|].
      destruct (user_is_valid_partial _ _ _ _); [|done]. simpl.
      by rewrite lookup_insert_ne.
    + destruct (negb (Py.truthy _)); [done|].
      destruct (ORM.get _ _ _) as [j r| |]; [|done..].
      destruct (negb (bool_decide (j = pk))); [done|]. simpl.
      by rewrite lookup_delete_ne.
Qed.

Lemma other_accounts_untouched_witness :
  let request :=
    Scenario.request (Request.Authenticated 2 Scenario.bob) [("user_id", "1")]
      (Scenario.rename "Mallory") in
  users (UserView.post (H := Derived.framework) request Scenario.db).2 !! 1
    = Some Scenario.alice
  ∧ users (UserView.put (H := Derived.framework) request Scenario.db).2 !! 1
    = Some Scenario.alice
  ∧ users (UserView.delete request Scenario.db).2 !! 1 = Some Scenario.alice.
Proof.
  intros request.
  apply (other_accounts_untouched (H := Derived.framework) Scenario.db request 1
           Scenario.alice); [reflexivity | discriminate].
Defined.

(** ** What a request can change *)

(** The handlers of [/projects/] write to the projects table only, and only
    when they answer with their success code (201 for POST, 200 for PUT, 204
    for DELETE); with any other outcome, an escaping exception included, the
    store is exactly as before.  GET never writes. *)
Theorem projects_views_frame `{Framework}
    (db : DB) (request : Request.t ProjectSerializer.data) :
  (same_but_projects db (ProjectsView.post request db).2
   ∧ (status_of (ProjectsView.post request db).1 = Some 201
      ∨ (ProjectsView.post request db).2 = db))
  ∧ (same_but_projects db (ProjectsView.put request db).2
     ∧ (status_of (ProjectsView.put request db).1 = Some 200
        ∨ (ProjectsView.put request db).2 = db))
  ∧ (same_but_projects db (ProjectsView.delete request db).2
     ∧ (status_of (ProjectsView.delete request db).1 = Some 204
        ∨ (ProjectsView.delete request db).2 = db))
  ∧ (ProjectsView.get request db).2 = db.
Proof.
  unfold ProjectsView.post, ProjectsView.put, ProjectsView.delete, ProjectsView.get,
    same_but_projects.
  repeat split; repeat case_match; simpl; auto.
Qed.

(** The handlers of [/sample-work/] write to the sample-works table only,
    and only when they answer with their success code; otherwise the store
    is exactly as before.  GET never writes. *)
Theorem sample_work_views_frame `{Framework}
    (db : DB) (request : Request.t SampleWorkSerializer.data) :
  (same_but_sample_works db (SampleWorkView.post request db).2
   ∧ (status_of (SampleWorkView.post request db).1 = Some 201
      ∨ (SampleWorkView.post request db).2 = db))
  ∧ (same_but_sample_works db (SampleWorkView.put request db).2
     ∧ (status_of (SampleWorkView.put request db).1 = Some 200
        ∨ (SampleWorkView.put request db).2 = db))
  ∧ (same_but_sample_works db (SampleWorkView.delete request db).2
     ∧ (status_of (SampleWorkView.delete request db).1 = Some 204
        ∨ (SampleWorkView.delete request db).2 = db))
  ∧ (SampleWorkView.get request db).2 = db.
Proof.
  unfold SampleWorkView.post, SampleWorkView.put, SampleWorkView.delete,
    SampleWorkView.get, same_but_sample_works.
  repeat split; repeat case_match; simpl; auto.
Qed.


(** ** Owners at work *)

Lemma user_type_is_true (u : User.row) (s : string) :
  User.user_type_is u s = true ↔ User.user_type u = Some s.
Proof.
  unfold User.user_type_is. destruct (User.user_type u) as [t|]; [|done].
  rewrite String.eqb_eq. split; congruence.
Qed.








Lemma set_projects_same (db : DB) : set_projects (projects db) db = db.
Proof. by destruct db. Qed.

Lemma set_sample_works_same (db : DB) : set_sample_works (sample_works db) db = db.
Proof. by destruct db. Qed.










(** ** Sample works *)





(** ** The id parameter *)


(** Without the id parameter in the query string the handlers disagree:
    [ProjectsView.put] and [SampleWorkView.delete] go on to the lookup, which
    finds nothing, and answer 404; [ProjectsView.delete],
    [SampleWorkView.put], [UserView.put] and [UserView.delete] test the
    parameter first and answer 400.  The store is untouched. *)
Theorem id_parameter_missing `{Framework} (db : DB) (pk : Z) (caller : User.row) :
  (∀ request : Request.t ProjectSerializer.data,
     Request.user request = Request.Authenticated pk caller →
     Request.GET request !! "project_id" = None →
     ProjectsView.put request db = (Response 404 (Detail "Project not found"), db)
     ∧ (User.user_type caller = Some "employer" →
        ProjectsView.delete request db
          = (Response 400 (Detail "Project ID is required"), db)))
  ∧ (∀ request : Request.t SampleWorkSerializer.data,
       Request.user request = Request.Authenticated pk caller →
       Request.GET request !! "sample_project_id" = None →
       SampleWorkView.put request db
         = (Response 400 (Detail "sample_project_id is required"), db)
       ∧ (User.user_type caller = Some "freelancer" →
          SampleWorkView.delete request db
            = (Response 404 (Detail "Sample project not found"), db)))
  ∧ (∀ request : Request.t UserSerializer.data,
       Request.user request = Request.Authenticated pk caller →
       Request.GET request !! "user_id" = None →
       UserView.put request db = (Response 400 (Detail "User ID is required"), db)
       ∧ UserView.delete request db = (Response 400 (Detail "User ID is required"), db)).
Proof.
  split; [|split]; intros request Huser Hparam; split.
  - unfold ProjectsView.put. by rewrite Huser, Hparam.
  - intros Htype. unfold ProjectsView.delete.
    by rewrite Huser, (proj2 (user_type_is_true _ _) Htype), Hparam.
  - unfold SampleWorkView.put. by rewrite Huser, Hparam.
  - intros Htype. unfold SampleWorkView.delete.
    by rewrite Huser, (proj2 (user_type_is_true _ _) Htype), Hparam.
  - unfold UserView.put. by rewrite Huser, Hparam.
  - unfold UserView.delete. by rewrite Huser, Hparam.
Qed.

Lemma id_parameter_missing_witness :
  let alice {D} (d : D) := Scenario.request (Request.Authenticated 1 Scenario.alice) [] d in
  let bob {D} (d : D) := Scenario.request (Request.Authenticated 2 Scenario.bob) [] d in
  ProjectsView.put (H := Derived.framework) (alice Scenario.no_project) Scenario.db
    = (Response 404 (Detail "Project not found"), Scenario.db)
  ∧ ProjectsView.delete (alice Scenario.no_project) Scenario.db
    = (Response 400 (Detail "Project ID is required"), Scenario.db)
  ∧ SampleWorkView.put (H := Derived.framework) (bob Scenario.no_sample_work) Scenario.db
    = (Response 400 (Detail "sample_project_id is required"), Scenario.db)
  ∧ SampleWorkView.delete (bob Scenario.no_sample_work) Scenario.db
    = (Response 404 (Detail "Sample project not found"), Scenario.db)
  ∧ UserView.put (H := Derived.framework) (bob Scenario.no_user) Scenario.db
    = (Response 400 (Detail "User ID is required"), Scenario.db)
  ∧ UserView.delete (bob Scenario.no_user) Scenario.db
    = (Response 400 (Detail "User ID is required"), Scenario.db).
Proof.
  intros alice bob.
  destruct (id_parameter_missing (H := Derived.framework) Scenario.db 1 Scenario.alice)
    as (Hprojects & _ & _).
  destruct (id_parameter_missing (H := Derived.framework) Scenario.db 2 Scenario.bob)
    as (_ & Hsamples & Husers).
  destruct (Hprojects (alice _ Scenario.no_project) eq_refl eq_refl) as [Hput Hdelete].
  destruct (Hsamples (bob _ Scenario.no_sample_work) eq_refl eq_refl) as [Hput' Hdelete'].
  destruct (Husers (bob _ Scenario.no_user) eq_refl eq_refl) as [Hput'' Hdelete''].
  split; [exact Hput|]. split; [exact (Hdelete eq_refl)|]. split; [exact Hput'|].
  split; [exact (Hdelete' eq_refl)|]. split; [exact Hput''|exact Hdelete''].
Defined.



(** ** Listings *)




Lemma singleton_list {A} (a : A) (l : list A) :
  NoDup l → (∀ x, x ∈ l → x = a) → l = [] ∨ l = [a].
Proof.
  intros Hnodup Hall. destruct l as [|x [|y l]]; [by left| |].
  - right. f_equal. apply Hall. by left.
  - exfalso. apply NoDup_cons in Hnodup as [Hx _]. apply Hx.
    rewrite (Hall x), (Hall y); [by left| |by left]. right. by left.
Qed.

Lemma own_queryset {A} (t : gmap Z A) (pk : Z) :
  filter (λ kr, kr.1 = pk) (ORM.all t)
  = match t !! pk with Some r => [(pk, r)] | None => [] end.
Proof.
  assert (Hmem : ∀ k r, (k, r) ∈ filter (λ kr : Z * A, kr.1 = pk) (ORM.all t)
                        ↔ k = pk ∧ t !! pk = Some r).
  { intros k r. rewrite list_elem_of_filter, elem_of_all. simpl.
    split; [by intros [-> ?]|by intros [-> ?]]. }
  assert (Hnodup : NoDup (filter (λ kr : Z * A, kr.1 = pk) (ORM.all t)))
    by apply NoDup_filter, NoDup_all.
  destruct (t !! pk) as [r|] eqn:Hrow.
  - destruct (singleton_list (pk, r) _ Hnodup) as [Hnil | Hone]; [|  |done].
    + intros [k r'] [-> Hr']%Hmem. congruence.
    + assert (Hin : (pk, r) ∈ filter (λ kr : Z * A, kr.1 = pk) (ORM.all t))
        by (by apply Hmem).
      rewrite Hnil in Hin. by apply elem_of_nil in Hin.
  - destruct (filter _ _) as [|[k r] l] eqn:Hl; [done|].
    assert (Hin : (k, r) ∈ (k, r) :: l) by by left.
    apply Hmem in Hin as [_ Hr]. congruence.
Qed.

Lemma paginate_inv {A} (size : nat) (page : option string) (rows : list (Z * A))
    code count results :
  paginate size page rows = Response code (Paginated count results) →
  count = length rows ∧ results ⊆ rows.
Proof.
  unfold paginate. repeat case_match; try done; intros [= <- <- <-];
    (split; [done|]); (etransitivity; [apply subseteq_take | apply subseteq_drop]).
Qed.

(** [GET /users/] shows an authenticated caller nothing but its own stored
    row: whatever page is asked for, the envelope counts at most one row and
    every row in it is the one stored under the caller's key.  Asked without
    a [page] parameter, with a page size of one or more, it is the envelope
    of exactly that row. *)
Theorem user_get_own_record_only `{Framework}
    {D} (request : Request.t D) (db : DB) (pk : Z) (caller : User.row) :
  Request.user request = Request.Authenticated pk caller →
  (∀ code count results,
     (UserView.get request db).1 = Response code (Paginated count results) →
     (count ≤ 1)%nat ∧ ∀ k r, (k, r) ∈ results → k = pk ∧ users db !! pk = Some r)
  ∧ (∀ r, users db !! pk = Some r →
          Request.GET request !! "page" = None →
          (0 < page_size)%nat →
          UserView.get request db = (Response 200 (Paginated 1 [(pk, r)]), db)).
Proof.
  intros Huser. unfold UserView.get. rewrite Huser, own_queryset. split.
  - intros code count results [-> Hsub]%paginate_inv.
    destruct (users db !! pk) as [r|]; simpl; (split; [lia|]);
      intros k r' Hin%Hsub.
    + by apply list_elem_of_singleton in Hin as [= -> ->].
    + by apply elem_of_nil in Hin.
  - intros r Hrow Hpage Hsize. rewrite Hrow, Hpage. unfold paginate. simpl.
    revert Hsize. generalize page_size. intros [|[|n]] Hsize; [lia|done..].
Qed.

Lemma user_get_own_record_only_witness :
  let request := Scenario.request (Request.Authenticated 2 Scenario.bob) [("page", "1")] tt in
  ((1 ≤ 1)%nat
   ∧ ∀ k r, (k, r) ∈ [(2, Scenario.bob)] → k = 2 ∧ users Scenario.db !! 2 = Some r)
  ∧ UserView.get (H := Derived.framework)
      (Scenario.request (Request.Authenticated 2 Scenario.bob) [] tt) Scenario.db
    = (Response 200 (Paginated 1 [(2, Scenario.bob)]), Scenario.db).
Proof.
  intros request. split.
  - apply (proj1 (user_get_own_record_only (H := Derived.framework) request Scenario.db
                    2 Scenario.bob eq_refl) 200). reflexivity.
  - apply (proj2 (user_get_own_record_only (H := Derived.framework)
      (Scenario.request (Request.Authenticated 2 Scenario.bob) [] tt) Scenario.db
      2 Scenario.bob eq_refl) Scenario.bob); [reflexivity | reflexivity | simpl; lia].
Defined.

(** ** Accounts *)






(** ** Referential integrity *)

Lemma delete_user_integrity (db : DB) (u : Z) :
  integrity db → integrity (ORM.delete_user u db).
Proof.
  intros (Husers & Hskills & Hprojects & Hsamples).
  unfold integrity, user_categories_exist, ORM.delete_user.
  split; [|split; [|split]]; simpl.
  - intros k r c [_ Hr]%lookup_delete_Some Hc. by apply (Husers k r c).
  - exact Hskills.
  - intros k p [Hp Hown]%map_lookup_filter_Some. simpl in Hown.
    destruct (Hprojects k p Hp) as [Howner Hcategory]. split; [|done].
    by rewrite lookup_delete_ne.
  - intros k w [Hw Hown]%map_lookup_filter_Some. simpl in Hown.
    rewrite lookup_delete_ne by done. by apply (Hsamples k w).
Qed.

Lemma delete_category_integrity (db db' : DB) (c : Z) :
  integrity db → ORM.delete_category c db = ORM.Deleted db' → integrity db'.
Proof.
  intros (Husers & Hskills & Hprojects & Hsamples) Hdelete.
  unfold ORM.delete_category in Hdelete.
  case_bool_decide as Hprotected; [discriminate|]. injection Hdelete as <-.
  unfold integrity, user_categories_exist.
  split; [|split; [|split]]; simpl.
  - intros k r c' Hr Hc'. simpl in *. rewrite lookup_delete_ne; [by eapply Husers|].
    intros <-. apply Hprotected. exists k, r. split; [done|].
    unfold ORM.protects. by apply bool_decide_eq_true_2.
  - intros k s [Hs Hc]%map_lookup_filter_Some. simpl in Hc.
    rewrite lookup_delete_ne by done. by apply (Hskills k s).
  - intros k p [Hp Hc]%map_lookup_filter_Some. simpl in Hc.
    destruct (Hprojects k p Hp) as [Howner Hcategory]. split; [done|].
    by rewrite lookup_delete_ne.
  - exact Hsamples.
Qed.

Lemma delete_project_integrity (db : DB) (k : Z) :
  integrity db → integrity (ORM.delete_project k db).
Proof.
  intros (Husers & Hskills & Hprojects & Hsamples).
  unfold integrity, ORM.delete_project, set_projects.
  split; [|split; [|split]]; simpl; [done..| |done].
  intros j p [_ Hp]%lookup_delete_Some. by apply (Hprojects j p).
Qed.

Lemma delete_sample_work_integrity (db : DB) (k : Z) :
  integrity db → integrity (ORM.delete_sample_work k db).
Proof.
  intros (Husers & Hskills & Hprojects & Hsamples).
  unfold integrity, ORM.delete_sample_work, set_sample_works.
  split; [|split; [|split]]; simpl; [done..|].
  intros j w [_ Hw]%lookup_delete_Some. by apply (Hsamples j w).
Qed.

Lemma scenario_integrity : integrity Scenario.db.
Proof.
  split; [|split; [|split]].
  - intros k u c Hu Hc.
    assert (Hall : map_Forall (λ _ u, ∀ c, User.category u = Some c →
                     is_Some (categories Scenario.db !! c)) (users Scenario.db)).
    { repeat first [apply map_Forall_insert_2 | apply map_Forall_empty];
        intros c' [= <-]. by eexists. }
    exact (Hall k u Hu c Hc).
  - intros k s Hs.
    assert (Hall : map_Forall (λ _ s, is_Some (categories Scenario.db !! Skill.category s))
                     (skills Scenario.db)).
    { apply (bool_decide_eq_true_1 _). vm_compute. reflexivity. }
    exact (Hall k s Hs).
  - intros k p Hp.
    assert (Hall : map_Forall (λ _ p, is_Some (users Scenario.db !! Projects.user p)
                     ∧ is_Some (categories Scenario.db !! Projects.category p))
                     (projects Scenario.db)).
    { apply (bool_decide_eq_true_1 _). vm_compute. reflexivity. }
    exact (Hall k p Hp).
  - intros k w Hw.
    assert (Hall : map_Forall (λ _ w, is_Some (users Scenario.db !! SampleWork.user w))
                     (sample_works Scenario.db)).
    { apply (bool_decide_eq_true_1 _). vm_compute. reflexivity. }
    exact (Hall k w Hw).
Qed.

(** The deletion rules keep every foreign key valid: in a store where every
    reference names a stored row, that is still so after a user deletion,
    after a category deletion that goes through, and after any DELETE
    request to [/users/], [/projects/] or [/sample-work/], whatever its
    caller and query string.  No deletion leaves a dangling owner or
    category behind. *)
Theorem deletions_keep_integrity (db : DB) :
  integrity db →
  (∀ u, integrity (ORM.delete_user u db))
  ∧ (∀ c db', ORM.delete_category c db = ORM.Deleted db' → integrity db')
  ∧ (∀ D (request : Request.t D),
       integrity (UserView.delete request db).2
       ∧ integrity (ProjectsView.delete request db).2
       ∧ integrity (SampleWorkView.delete request db).2).
Proof.
  intros Hdb. split; [intros u; by apply delete_user_integrity|].
  split; [intros c db'; by apply delete_category_integrity|].
  intros D request.
  unfold UserView.delete, ProjectsView.delete, SampleWorkView.delete.
  split; [|split]; repeat case_match; cbn [snd];
    auto using delete_user_integrity, delete_project_integrity,
      delete_sample_work_integrity.
Qed.

Lemma deletions_keep_integrity_witness :
  integrity (ORM.delete_user 1 Scenario.db)
  ∧ (∀ db', ORM.delete_category 1 Scenario.db = ORM.Deleted db' → integrity db')
  ∧ integrity (UserView.delete
                 (Scenario.request (Request.Authenticated 2 Scenario.bob)
                    [("user_id", "2")] tt) Scenario.db).2.
Proof.
  destruct (deletions_keep_integrity Scenario.db scenario_integrity)
    as (Huser & Hcategory & Hviews).
  split; [apply Huser|]. split; [apply Hcategory|]. apply Hviews.
Defined.

(** Creation keeps every foreign key valid as well.  Because POST stores the
    caller as owner, a sample work created by a stored account never has a
    dangling owner, whatever the body names; the same holds for a project
    as soon as the validated category is a stored one. *)
Theorem posts_keep_integrity `{Framework} (db : DB) (pk : Z) (caller : User.row) :
  integrity db →
  is_Some (users db !! pk) →
  (∀ request : Request.t SampleWorkSerializer.data,
     Request.user request = Request.Authenticated pk caller →
     integrity (SampleWorkView.post request db).2)
  ∧ (∀ request : Request.t ProjectSerializer.data,
       Request.user request = Request.Authenticated pk caller →
       (∀ v, project_is_valid db (Request.data request) = Some v →
             is_Some (categories db !! Projects.category v)) →
       integrity (ProjectsView.post request db).2).
Proof.
  intros Hdb Hcaller.
  pose proof Hdb as (Husers & Hskills & Hprojects & Hsamples).
  split.
  - intros request Huser. unfold SampleWorkView.post. rewrite Huser.
    repeat case_match; simpl; try done.
    unfold integrity, set_sample_works.
    split; [|split; [|split]]; simpl; [done..|].
    intros k w [[_ <-]|[_ Hw]]%lookup_insert_Some; [done|by apply (Hsamples k w)].
  - intros request Huser Hcategory. unfold ProjectsView.post. rewrite Huser.
    destruct (User.user_type_is caller "freelancer"); [done|].
    destruct (project_is_valid _ _) as [v|] eqn:Hvalid; [|done]. simpl.
    unfold integrity, set_projects.
    split; [|split; [|split]]; simpl; [done..| |done].
    intros k p [[_ <-]|[_ Hp]]%lookup_insert_Some; [|by apply (Hprojects k p)].
    simpl. split; [done|by apply Hcategory].
Qed.

Lemma posts_keep_integrity_witness :
  integrity (SampleWorkView.post (H := Derived.framework)
               (Scenario.request (Request.Authenticated 2 Scenario.bob) []
                  Scenario.new_sample_work) Scenario.db).2
  ∧ integrity (ProjectsView.post (H := Derived.framework)
                 (Scenario.request (Request.Authenticated 3 Scenario.carol) []
                    Scenario.new_project) Scenario.db).2.
Proof.
  split.
  - apply (proj1 (posts_keep_integrity (H := Derived.framework) Scenario.db 2 Scenario.bob
                    scenario_integrity (ex_intro _ Scenario.bob eq_refl)));
      reflexivity.
  - apply (proj2 (posts_keep_integrity (H := Derived.framework) Scenario.db 3 Scenario.carol
                    scenario_integrity (ex_intro _ Scenario.carol eq_refl)));
      [reflexivity|].
    intros v [= <-]. by eexists.
Defined.
